(** * react-hook-form-storage: the hook and its helpers

    A shallow embedding of [utils.ts] (field selection, value
    transformation, debouncing) and of [use-react-hook-form-storage.ts]
    (the storage adapter shim and the save / restore / clear pipelines),
    followed by the properties of the specification that they satisfy
    or break. *)

From Stdlib Require Import Ascii.
From stdpp Require Import gmap strings list pretty.

Local Open Scope string_scope.
Local Open Scope list_scope.
Local Open Scope Z_scope.

(** ** Values thrown and values returned

    A JavaScript call either returns or throws.  What the hook does with
    a caught [error] is to interpolate it into a log line, so an
    exception is represented by the text [`${error}`] yields. *)

Definition exn := string.

Inductive result (A : Type) : Type :=
| Returned (a : A)
| Thrown (e : exn).
Arguments Returned {A} a.
Arguments Thrown {A} e.

Definition result_bind {A B} (r : result A) (k : A → result B) : result B :=
  match r with
  | Returned a => k a
  | Thrown e => Thrown e
  end.

(** ** Objects used as field mappings

    A plain object is given by its own enumerable entries, in the order
    [Object.entries] lists them; keys are unique.  [{ ...acc, [field]: value }]
    overwrites the value of a key that [acc] already has, in place, and
    otherwise adds the key after the existing ones. *)

Abbreviation fields V := (list (string * V)).

Fixpoint set_prop {V} (field : string) (value : V) (acc : fields V) : fields V :=
  match acc with
  | [] => [(field, value)]
  | (k, v) :: rest =>
      if decide (k = field) then (k, value) :: rest
      else (k, v) :: set_prop field value rest
  end.

Fixpoint get_prop {V} (field : string) (o : fields V) : option V :=
  match o with
  | [] => None
  | (k, v) :: rest => if decide (k = field) then Some v else get_prop field rest
  end.

Definition keys {V} (o : fields V) : list string := o.*1.

(** [Array.prototype.includes] on an array of strings. *)
Definition includes (xs : list string) (x : string) : bool :=
  bool_decide (x ∈ xs).

(** ** utils.ts *)

Module Utils.

(** [filterIncludedOrExcludedFields(values, included?, excluded?)].  An
    absent list is [undefined], the only falsy value the parameter type
    admits: every array, the empty one too, is truthy. *)
Definition filterIncludedOrExcludedFields {V} (values : fields V)
    (included excluded : option (list string)) : fields V :=
  foldl (λ acc '(field, value),
           if match included with
              | Some inc => negb (includes inc field)
              | None => false
              end
           then acc
           else if match excluded with
                   | Some exc => includes exc field
                   | None => false
                   end
           then acc
           else set_prop field value acc)
        [] values.

(** [Serializer<T, K>]: both functions are optional, and either may throw. *)
Record Serializer (V : Type) := {
  serialize : option (V → result V);
  deserialize : option (V → result V);
}.
Arguments serialize {V} _.
Arguments deserialize {V} _.

(** The callback of the [reduce] in [transformValues]; it is not reached
    once a transform function has thrown. *)
Definition transform_entry {V} (serializer : gmap string (Serializer V))
    (deserialize_dir : bool) (acc : result (fields V)) (entry : string * V)
    : result (fields V) :=
  let '(field, value) := entry in
  result_bind acc (λ acc,
    match serializer !! field with
    | None => Returned (set_prop field value acc)
    | Some fieldSerializer =>
        let transformFn :=
          if deserialize_dir then deserialize fieldSerializer
          else serialize fieldSerializer in
        match transformFn with
        | None => Returned acc
        | Some fn =>
            result_bind (fn value) (λ transformedValue,
              Returned (set_prop field transformedValue acc))
        end
    end).

(** [transformValues(values, serializer, deserialize)].  The registry is
    read as a map from field names to serializers (its own properties). *)
Definition transformValues {V} (values : fields V)
    (serializer : gmap string (Serializer V)) (deserialize_dir : bool)
    : result (fields V) :=
  foldl (transform_entry serializer deserialize_dir) (Returned []) values.

(** *** Timers

    [setTimeout] and [clearTimeout] act on the queue of pending timers of
    the event loop.  A timer of the debouncer runs [cb(...args)], so it is
    stored with its arguments; handles are never null, hence truthy. *)

Record timer (A : Type) := {
  handle : positive;
  due : Z;
  timer_args : A;
}.
Arguments handle {A} _.
Arguments due {A} _.
Arguments timer_args {A} _.

(** The debouncer together with the event loop it runs in: the clock,
    the next fresh handle, the pending timers, the closure variable
    [timeout], and the calls of [cb] made so far with their times. *)
Record debounce_state (A : Type) := {
  now : Z;
  next_handle : positive;
  pending : list (timer A);
  timeout : option positive;
  executed : list (Z * A);
}.
Arguments now {A} _.
Arguments next_handle {A} _.
Arguments pending {A} _.
Arguments timeout {A} _.
Arguments executed {A} _.

Definition initial {A} (t0 : Z) : debounce_state A :=
  {| now := t0; next_handle := 1%positive; pending := [];
     timeout := None; executed := [] |}.

Definition clearTimeout {A} (h : positive) (q : list (timer A)) : list (timer A) :=
  filter (λ tm, handle tm ≠ h) q.

(** A call of the function [debouncer(cb, delay)] returns:
    [if (timeout) clearTimeout(timeout); timeout = setTimeout(() => cb(...args), delay)]. *)
Definition debouncer {A} (delay : Z) (args : A) (s : debounce_state A)
    : debounce_state A :=
  let q := match timeout s with
           | Some h => clearTimeout h (pending s)
           | None => pending s
           end in
  let h := next_handle s in
  {| now := now s;
     next_handle := Pos.succ h;
     pending := q ++ [{| handle := h; due := now s + Z.max 0 delay; timer_args := args |}];
     timeout := Some h;
     executed := executed s |}.

(** The event loop runs the pending timers that are due, earliest first
    and in the order of their creation among equals. *)
Fixpoint earliest {A} (q : list (timer A)) : option (timer A) :=
  match q with
  | [] => None
  | tm :: rest =>
      match earliest rest with
      | Some tm' => if due tm' <? due tm then Some tm' else Some tm
      | None => Some tm
      end
  end.

Fixpoint run_timers {A} (fuel : nat) (t : Z) (q : list (timer A))
    (done : list (Z * A)) : list (timer A) * list (Z * A) :=
  match fuel with
  | O => (q, done)
  | S fuel =>
      match earliest q with
      | Some tm =>
          if due tm <=? t
          then run_timers fuel t (clearTimeout (handle tm) q)
                          (done ++ [(due tm, timer_args tm)])
          else (q, done)
      | None => (q, done)
      end
  end.

(** Time passes until [t] with no call of the debounced function. *)
Definition advance {A} (t : Z) (s : debounce_state A) : debounce_state A :=
  let ran := run_timers (length (pending s)) t (pending s) (executed s) in
  {| now := Z.max (now s) t;
     next_handle := next_handle s;
     pending := ran.1;
     timeout := timeout s;
     executed := ran.2 |}.

(** A call of the debounced function at time [t]. *)
Definition call_at {A} (delay : Z) (t : Z) (args : A) (s : debounce_state A)
    : debounce_state A :=
  debouncer delay args (advance t s).

(** The debouncer owns at most one pending timer, the one [timeout]
    refers to, and handles still to be given out are fresh. *)
Definition debounce_inv {A} (s : debounce_state A) : Prop :=
  match timeout s with
  | None => pending s = []
  | Some h =>
      (h < next_handle s)%positive ∧
      (pending s = [] ∨ ∃ d a, pending s = [{| handle := h; due := d; timer_args := a |}])
  end.

End Utils.

(** ** use-react-hook-form-storage.ts *)

Module Hook.
Import Utils.

(** [Storage | UseFormStorageAdapter]: each operation acts on the contents
    [S] of the store and returns (resolves) or throws (rejects). *)
Record Storage (S : Type) := {
  storage_getItem : string → S → result (option string) * S;
  storage_setItem : string → string → S → result unit * S;
  storage_removeItem : string → S → result unit * S;
}.
Arguments storage_getItem {S} _ _ _.
Arguments storage_setItem {S} _ _ _ _.
Arguments storage_removeItem {S} _ _ _.

(** What the hook uses of the language: [JSON.parse], [JSON.stringify] of
    an object, and [Object.entries] of a parsed value. *)
Class JS (V : Type) := {
  JSON_parse : string → result V;
  JSON_stringify : fields V → result string;
  Object_entries : V → result (fields V);
}.

(** The third argument of [setValue]. *)
Record SetValueConfig := {
  shouldDirty : option bool;
  shouldTouch : option bool;
  shouldValidate : option bool;
}.

(** What the hook uses of [UseFormReturn<T>]. *)
Class FormBinding (F V : Type) := {
  setValue : string → V → SetValueConfig → F → F;
  getValues : F → fields V;
}.

(** [UseFormStorageOptions<T>], as far as the three pipelines read it.
    A callback may throw. *)
Record Options (V : Type) := {
  included : option (list string);
  excluded : option (list string);
  onRestore : option (fields V → result unit);
  onSave : option (fields V → result unit);
  dirty : option bool;
  touched : option bool;
  validate : option bool;
  serializer : gmap string (Serializer V);
}.
Arguments included {V} _.
Arguments excluded {V} _.
Arguments onRestore {V} _.
Arguments onSave {V} _.
Arguments dirty {V} _.
Arguments touched {V} _.
Arguments validate {V} _.
Arguments serializer {V} _.

(** What a pipeline does to its surroundings, in the order it does it:
    calls of the store, form writes, state setters, [console.error] and
    the two callbacks. *)
Inductive event (V : Type) : Type :=
| GetItem (k : string)
| SetItem (k value : string)
| RemoveItem (k : string)
| SetValue (field : string) (value : V) (config : SetValueConfig)
| SetIsRestored (b : bool)
| SetIsLoading (b : bool)
| ConsoleError (line : string)
| OnRestore (values : fields V)
| OnSave (values : fields V).
Arguments GetItem {V} k.
Arguments SetItem {V} k value.
Arguments RemoveItem {V} k.
Arguments SetValue {V} field value config.
Arguments SetIsRestored {V} b.
Arguments SetIsLoading {V} b.
Arguments ConsoleError {V} line.
Arguments OnRestore {V} values.
Arguments OnSave {V} values.

(** Everything a pipeline reads or writes: the contents of the store, the
    form, the two pieces of React state, and the events so far, oldest
    first. *)
Record world (S F V : Type) := {
  store : S;
  form : F;
  isRestored : bool;
  isLoading : bool;
  trace : list (event V);
}.
Arguments store {S F V} _.
Arguments form {S F V} _.
Arguments isRestored {S F V} _.
Arguments isLoading {S F V} _.
Arguments trace {S F V} _.

(** The lines given to [console.error]. *)
Definition console {S F V} (w : world S F V) : list string :=
  omap (λ ev, match ev with ConsoleError line => Some line | _ => None end) (trace w).

(** The callback calls made. *)
Definition callbacks {S F V} (w : world S F V) : list (event V) :=
  omap (λ ev, match ev with OnRestore _ | OnSave _ => Some ev | _ => None end) (trace w).

(** An [async] function body: it changes the world and then resolves or
    rejects. *)
Definition M (W A : Type) : Type := W → result A * W.

Definition ret {W A} (a : A) : M W A := λ w, (Returned a, w).

Definition bind {W A B} (m : M W A) (k : A → M W B) : M W B :=
  λ w, match m w with
       | (Returned a, w') => k a w'
       | (Thrown e, w') => (Thrown e, w')
       end.

Definition lift {W A} (r : result A) : M W A := λ w, (r, w).

(** [try { body } catch (error) { handler }] *)
Definition try_catch {W A} (body : M W A) (handler : exn → M W A) : M W A :=
  λ w, match body w with
       | (Returned a, w') => (Returned a, w')
       | (Thrown e, w') => handler e w'
       end.

(** [try { body } finally { cleanup }], for a [cleanup] that returns. *)
Definition try_finally {W A} (body : M W A) (cleanup : W → W) : M W A :=
  λ w, let '(r, w') := body w in (r, cleanup w').

#[export] Instance M_bind {W} : MBind (M W) := λ A B k m, bind m k.

Section Pipelines.
Context {S F V : Type}.
Context (storage : Storage S) {js : JS V} {fb : FormBinding F V}.
Context (key : string) (options : Options V).

Abbreviation W := (world S F V).

Definition emit (ev : event V) (w : W) : W :=
  {| store := store w; form := form w; isRestored := isRestored w;
     isLoading := isLoading w; trace := trace w ++ [ev] |}.

Definition with_store (s : S) (w : W) : W :=
  {| store := s; form := form w; isRestored := isRestored w;
     isLoading := isLoading w; trace := trace w |}.

Definition with_form (f : F) (w : W) : W :=
  {| store := store w; form := f; isRestored := isRestored w;
     isLoading := isLoading w; trace := trace w |}.

Definition with_isRestored (b : bool) (w : W) : W :=
  {| store := store w; form := form w; isRestored := b;
     isLoading := isLoading w; trace := trace w |}.

Definition with_isLoading (b : bool) (w : W) : W :=
  {| store := store w; form := form w; isRestored := isRestored w;
     isLoading := b; trace := trace w |}.

Definition setIsRestored (b : bool) (w : W) : W :=
  with_isRestored b (emit (SetIsRestored b) w).

Definition setIsLoading (b : bool) (w : W) : W :=
  with_isLoading b (emit (SetIsLoading b) w).

(** A state setter, a form write or a log line: it returns. *)
Definition update (f : W → W) : M W unit := λ w, (Returned (), f w).

Definition console_error (line : string) : M W unit :=
  update (emit (ConsoleError line)).

(** A call [await storage.op(...)], announced by [ev]. *)
Definition on_store {A} (ev : event V) (op : S → result A * S) : M W A :=
  λ w, let '(r, s) := op (store w) in (r, with_store s (emit ev w)).

(** *** The adapter shim ([storageAdapter]) *)

Definition setItem (k value : string) : M W unit :=
  try_catch
    (on_store (SetItem k value) (storage_setItem storage k value))
    (λ error,
       console_error ("[FORM-STORAGE] Failed to save data to storage: " +:+ error)).

Definition getItem (k : string) : M W (option string) :=
  try_catch
    (on_store (GetItem k) (storage_getItem storage k))
    (λ error,
       console_error ("[FORM-STORAGE] Failed to restore data from storage: " +:+ error) ;;
       ret None).

Definition removeItem (k : string) : M W unit :=
  try_catch
    (on_store (RemoveItem k) (storage_removeItem storage k))
    (λ error,
       console_error ("[FORM-STORAGE] Failed to clear storage: " +:+ error)).

(** [onSave?.(valuesToStore)] and [onRestore?.(valuesToRestore)] *)
Definition call_onSave (values : fields V) : M W unit :=
  match onSave options with
  | Some cb => update (emit (OnSave values)) ;; lift (cb values)
  | None => ret ()
  end.

Definition call_onRestore (values : fields V) : M W unit :=
  match onRestore options with
  | Some cb => update (emit (OnRestore values)) ;; lift (cb values)
  | None => ret ()
  end.

(** *** [saveToStorage] *)
Definition saveToStorage (values : fields V) : M W unit :=
  try_catch
    (let valuesToStore :=
       filterIncludedOrExcludedFields values (included options) (excluded options) in
     serialized ← lift (transformValues valuesToStore (serializer options) false);
     text ← lift (JSON_stringify serialized);
     setItem key text ;;
     call_onSave valuesToStore)
    (λ error, console_error ("[FORM-STORAGE] Failed to save data: " +:+ error)).

(** [setValue(field, value, { shouldDirty: dirty, shouldTouch: touched,
    shouldValidate: validate })] *)
Definition write_field (field : string) (value : V) (w : W) : W :=
  let config := {| shouldDirty := dirty options;
                   shouldTouch := touched options;
                   shouldValidate := validate options |} in
  with_form (setValue field value config (form w))
            (emit (SetValue field value config) w).

(** [Object.entries(deserializedValues).forEach(([field, value]) => ...)] *)
Definition write_fields (values : fields V) (w : W) : W :=
  foldl (λ w '(field, value), write_field field value w) w values.

(** *** [restoreDataFromStorage]

    [if (storedValue)] holds for a string that is not empty. *)
Definition restoreDataFromStorage : M W unit :=
  update (setIsLoading true) ;;
  try_finally
    (try_catch
       (storedValue ← getItem key;
        match storedValue with
        | Some text =>
            if decide (text = "") then ret ()
            else
              parsedValue ← lift (JSON_parse text);
              entries ← lift (Object_entries parsedValue);
              let valuesToRestore :=
                filterIncludedOrExcludedFields entries
                  (included options) (excluded options) in
              deserializedValues ←
                lift (transformValues valuesToRestore (serializer options) true);
              update (write_fields deserializedValues) ;;
              update (setIsRestored true) ;;
              call_onRestore valuesToRestore
        | None => ret ()
        end)
       (λ error,
          console_error
            ("[FORM-STORAGE] Failed to restore data from storage: " +:+ error)))
    (setIsLoading false).

(** *** What the hook returns *)
Definition save : M W unit := λ w, saveToStorage (getValues (form w)) w.
Definition clear : M W unit := removeItem key.
Definition restore : M W unit := restoreDataFromStorage.

End Pipelines.

End Hook.

(** ** JSON text and values

    An instance of the language interface, used to run the pipelines on
    stored text: JSON values whose numbers are integers, their parser
    and their printer.  Escapes other than the two-character ones and
    numbers with a fraction or an exponent are not read. *)

Module Json.

#[warnings="-register-all"] Inductive json : Type :=
| JNull
| JBool (b : bool)
| JNum (n : Z)
| JStr (s : string)
| JArr (items : list json)
| JObj (members : list (string * json)).

Definition dquote : ascii := ascii_of_nat 34.
Definition backslash : ascii := ascii_of_nat 92.

Definition is_ws (c : ascii) : bool :=
  bool_decide (c ∈ [ascii_of_nat 32; ascii_of_nat 9; ascii_of_nat 10; ascii_of_nat 13]).

Fixpoint skip_ws (s : string) : string :=
  match s with
  | String c rest => if is_ws c then skip_ws rest else s
  | EmptyString => s
  end.

Definition digit_of (c : ascii) : option Z :=
  let n := Z.of_nat (nat_of_ascii c) in
  if (48 <=? n) && (n <=? 57) then Some (n - 48) else None.

Fixpoint read_digits (acc : Z) (s : string) : Z * string :=
  match s with
  | String c rest =>
      match digit_of c with
      | Some d => read_digits (10 * acc + d) rest
      | None => (acc, s)
      end
  | EmptyString => (acc, s)
  end.

(** An integer literal: no leading zero, nothing of a fraction after it. *)
Definition read_int (s : string) : option (Z * string) :=
  match s with
  | String c rest =>
      match digit_of c with
      | Some d =>
          let '(n, rest') := if decide (d = 0) then (0, rest) else read_digits d rest in
          match rest' with
          | String c' _ =>
              if bool_decide (c' ∈ ["."%char; "e"%char; "E"%char]) || bool_decide (is_Some (digit_of c'))
              then None else Some (n, rest')
          | EmptyString => Some (n, rest')
          end
      | None => None
      end
  | EmptyString => None
  end.

Definition unescape (c : ascii) : option ascii :=
  if decide (c = dquote) then Some dquote
  else if decide (c = backslash) then Some backslash
  else match c with
       | "/"%char => Some "/"%char
       | "n"%char => Some (ascii_of_nat 10)
       | "t"%char => Some (ascii_of_nat 9)
       | "r"%char => Some (ascii_of_nat 13)
       | "b"%char => Some (ascii_of_nat 8)
       | "f"%char => Some (ascii_of_nat 12)
       | _ => None
       end.

(** The characters of a string literal after its opening quote. *)
Fixpoint read_string (s : string) : option (string * string) :=
  match s with
  | EmptyString => None
  | String c rest =>
      if decide (c = dquote) then Some (EmptyString, rest)
      else if decide (c = backslash) then
        match rest with
        | String e rest' =>
            match unescape e, read_string rest' with
            | Some c', Some (body, after) => Some (String c' body, after)
            | _, _ => None
            end
        | EmptyString => None
        end
      else if (Z.of_nat (nat_of_ascii c) <? 32) then None
      else match read_string rest with
           | Some (body, after) => Some (String c body, after)
           | None => None
           end
  end.

Definition drop_prefix (p s : string) : option string :=
  if String.prefix p s then Some (String.substring (String.length p) (String.length s - String.length p) s)
  else None.

Fixpoint read_value (fuel : nat) (s : string) : option (json * string) :=
  match fuel with
  | O => None
  | S fuel =>
      match skip_ws s with
      | EmptyString => None
      | String c rest as s' =>
          if decide (c = dquote) then
            '(body, after) ← read_string rest; Some (JStr body, after)
          else match c with
               | "n"%char => after ← drop_prefix "null" s'; Some (JNull, after)
               | "t"%char => after ← drop_prefix "true" s'; Some (JBool true, after)
               | "f"%char => after ← drop_prefix "false" s'; Some (JBool false, after)
               | "["%char =>
                   match skip_ws rest with
                   | String "]"%char after => Some (JArr [], after)
                   | _ => read_items fuel rest []
                   end
               | "{"%char =>
                   match skip_ws rest with
                   | String "}"%char after => Some (JObj [], after)
                   | _ => read_members fuel rest []
                   end
               | "-"%char => '(n, after) ← read_int rest; Some (JNum (- n), after)
               | _ => '(n, after) ← read_int s'; Some (JNum n, after)
               end
      end
  end
with read_items (fuel : nat) (s : string) (acc : list json) : option (json * string) :=
  match fuel with
  | O => None
  | S fuel =>
      '(v, after) ← read_value fuel s;
      match skip_ws after with
      | String ","%char more => read_items fuel more (acc ++ [v])
      | String "]"%char more => Some (JArr (acc ++ [v]), more)
      | _ => None
      end
  end
with read_members (fuel : nat) (s : string) (acc : list (string * json))
    : option (json * string) :=
  match fuel with
  | O => None
  | S fuel =>
      match skip_ws s with
      | String c rest =>
          if decide (c = dquote) then
            '(k, after) ← read_string rest;
            match skip_ws after with
            | String ":"%char more =>
                '(v, after') ← read_value fuel more;
                match skip_ws after' with
                | String ","%char more' => read_members fuel more' (set_prop k v acc)
                | String "}"%char more' => Some (JObj (set_prop k v acc), more')
                | _ => None
                end
            | _ => None
            end
          else None
      | EmptyString => None
      end
  end.

Definition parse (text : string) : result json :=
  match read_value (S (String.length text)) text with
  | Some (v, after) =>
      match skip_ws after with
      | EmptyString => Returned v
      | _ => Thrown "SyntaxError: Unexpected non-whitespace character after JSON"
      end
  | None => Thrown "SyntaxError: Unexpected token in JSON"
  end.

Fixpoint escape (s : string) : string :=
  match s with
  | EmptyString => EmptyString
  | String c rest =>
      if decide (c = dquote) then String backslash (String dquote (escape rest))
      else if decide (c = backslash) then String backslash (String backslash (escape rest))
      else if decide (c = ascii_of_nat 10) then String backslash (String "n"%char (escape rest))
      else if decide (c = ascii_of_nat 9) then String backslash (String "t"%char (escape rest))
      else if decide (c = ascii_of_nat 13) then String backslash (String "r"%char (escape rest))
      else String c (escape rest)
  end.

Definition quote (s : string) : string :=
  String dquote (escape s) +:+ String dquote EmptyString.

Definition join (sep : string) (parts : list string) : string :=
  match parts with
  | [] => EmptyString
  | p :: ps => foldl (λ acc q, acc +:+ sep +:+ q) p ps
  end.

Fixpoint stringify (v : json) : string :=
  match v with
  | JNull => "null"
  | JBool true => "true"
  | JBool false => "false"
  | JNum n => pretty n
  | JStr s => quote s
  | JArr items => "[" +:+ join "," (map stringify items) +:+ "]"
  | JObj members =>
      "{" +:+ join "," (map (λ kv, quote kv.1 +:+ ":" +:+ stringify kv.2) members) +:+ "}"
  end.

(** The entries of a string or an array are its indexed elements; a
    number or a boolean has none; [null] has no object to convert to. *)
Definition entries (v : json) : result (fields json) :=
  match v with
  | JNull => Thrown "TypeError: Cannot convert undefined or null to object"
  | JBool _ | JNum _ => Returned []
  | JStr s =>
      Returned (imap (λ i c, (pretty i, JStr (String c EmptyString))) (String.list_ascii_of_string s))
  | JArr items => Returned (imap (λ i v, (pretty i, v)) items)
  | JObj members => Returned members
  end.

#[export] Instance json_js : Hook.JS json := {
  JSON_parse := parse;
  JSON_stringify o := Returned (stringify (JObj o));
  Object_entries := entries;
}.

End Json.

(** ** Stores and forms to run the pipelines on *)

Module Stores.
Import Hook.

(** [localStorage] and [sessionStorage]: a map from keys to texts. *)
Definition webStorage : Storage (gmap string string) := {|
  storage_getItem k memory := (Returned (memory !! k), memory);
  storage_setItem k value memory := (Returned (), <[k := value]> memory);
  storage_removeItem k memory := (Returned (), delete k memory);
|}.

(** [createMockRemoteStore(options)] of the test utilities, without its
    network delay: each operation throws if its flag is set. *)
Record MockOptions := {
  shouldFailRestore : bool;
  shouldFailSave : bool;
  shouldFailClear : bool;
}.

Definition createMockRemoteStore (options : MockOptions)
    : Storage (gmap string string) := {|
  storage_getItem k memory :=
    if shouldFailRestore options
    then (Thrown "Error: Simulated restore failure", memory)
    else (Returned (memory !! k), memory);
  storage_setItem k value memory :=
    if shouldFailSave options
    then (Thrown "Error: Simulated save failure", memory)
    else (Returned (), <[k := value]> memory);
  storage_removeItem k memory :=
    if shouldFailClear options
    then (Thrown "Error: Simulated clear failure", memory)
    else (Returned (), delete k memory);
|}.

(** A form whose fields are all top-level: [setValue] overwrites or adds
    the field, whatever the flags. *)
#[export] Instance flat_form {V} : FormBinding (fields V) V := {
  setValue field value _ f := set_prop field value f;
  getValues f := f;
}.

Definition initial_world {V} (memory : gmap string string) (defaultValues : fields V)
    : world (gmap string string) (fields V) V :=
  {| store := memory; form := defaultValues; isRestored := false;
     isLoading := false; trace := [] |}.

End Stores.

(** ** The fixtures of the test suite *)

Module Fixtures.
Import Utils Hook Json Stores.

Definition STORAGE_TEST_KEY : string := "testKey".
Definition TEST_NAME : string := "testName".

Definition FORM_DEFAULT_VALUES : fields json :=
  [("name", JStr ""); ("email", JStr ""); ("number", JNum 0);
   ("list", JArr [JStr "item1"; JStr "item2"]);
   ("nested", JObj [("field1", JStr "value1"); ("field2", JStr "value2")])].

Definition STORAGE_DEFAULT_VALUES : fields json :=
  [("name", JStr "John Doe"); ("email", JStr "john@example.com"); ("number", JNum 2)].

(** No option given. *)
Definition no_options : Options json := {|
  included := None; excluded := None; onRestore := None; onSave := None;
  dirty := None; touched := None; validate := None; serializer := ∅;
|}.

(** [number: { serialize: (value) => value + 1, deserialize: (value) => value - 1 }],
    on numbers. *)
Definition number_serializer : Serializer json := {|
  serialize := Some (λ value, match value with
                              | JNum n => Returned (JNum (n + 1))
                              | _ => Returned value
                              end);
  deserialize := Some (λ value, match value with
                                | JNum n => Returned (JNum (n - 1))
                                | _ => Returned value
                                end);
|}.

(** A serializer with no [deserialize]. *)
Definition serialize_only : Serializer json := {|
  serialize := Some (λ value, Returned value);
  deserialize := None;
|}.

(** A callback that does nothing, as [jest.fn()]. *)
Definition mock_fn : fields json → result unit := λ _, Returned ().

(** [{ onRestore, onSave }], both mocks. *)
Definition callback_options : Options json := {|
  included := None; excluded := None;
  onRestore := Some mock_fn; onSave := Some mock_fn;
  dirty := None; touched := None; validate := None; serializer := ∅;
|}.

(** [{ excluded: ['email'], onRestore }] *)
Definition excluded_email_options : Options json := {|
  included := None; excluded := Some ["email"];
  onRestore := Some mock_fn; onSave := None;
  dirty := None; touched := None; validate := None; serializer := ∅;
|}.


(** A registry with a full entry and an entry that only serializes. *)
Definition sample_registry : gmap string (Serializer json) :=
  {["number" := number_serializer; "email" := serialize_only]}.

(** Stores: one that fails on every operation, one that fails to save. *)
Definition failing_store : Storage (gmap string string) :=
  createMockRemoteStore
    {| shouldFailRestore := true; shouldFailSave := true; shouldFailClear := true |}.

Definition failing_save_store : Storage (gmap string string) :=
  createMockRemoteStore
    {| shouldFailRestore := false; shouldFailSave := true; shouldFailClear := false |}.

(** The hook on a form with the default values, [text] being stored
    under the key of the tests. *)
Definition stored (text : string) : world (gmap string string) (fields json) json :=
  initial_world {[STORAGE_TEST_KEY := text]} FORM_DEFAULT_VALUES.

(** The hook on a form with the default values and an empty store. *)
Definition fresh : world (gmap string string) (fields json) json :=
  initial_world ∅ FORM_DEFAULT_VALUES.

(** The same after [setValue('name', TEST_NAME)]. *)
Definition edited : world (gmap string string) (fields json) json :=
  initial_world ∅ (set_prop "name" (JStr TEST_NAME) FORM_DEFAULT_VALUES).




(** A serializer whose functions throw. *)
Definition throwing_serializer : Serializer json := {|
  serialize := Some (λ _, Thrown "Error: cannot serialize");
  deserialize := Some (λ _, Thrown "Error: cannot deserialize");
|}.

(** [{ serializer: { email: throwing_serializer }, onRestore, onSave }] *)
Definition throwing_options : Options json := {|
  included := None; excluded := None;
  onRestore := Some mock_fn; onSave := Some mock_fn;
  dirty := None; touched := None; validate := None;
  serializer := {["email" := throwing_serializer]};
|}.

(** A session in which a restore has succeeded before. *)
Definition restored_before : world (gmap string string) (fields json) json :=
  {| store := ∅; form := FORM_DEFAULT_VALUES; isRestored := true;
     isLoading := false; trace := [] |}.


End Fixtures.

(** ** The transformer as the specification words it

    Entry by entry: a key the registry does not have keeps its value; a
    key whose entry lacks the function of the requested direction is
    left out; otherwise the function is applied and its return value is
    stored under the key. *)

Module Spec.
Import Utils.

Inductive direction := serialize_direction | restore_direction.

Definition is_restore (d : direction) : bool :=
  match d with restore_direction => true | serialize_direction => false end.

Definition function_for {V} (d : direction) (entry : Serializer V)
    : option (V → result V) :=
  match d with
  | serialize_direction => serialize entry
  | restore_direction => deserialize entry
  end.

Fixpoint transform {V} (values : fields V) (registry : gmap string (Serializer V))
    (d : direction) : result (fields V) :=
  match values with
  | [] => Returned []
  | (key, value) :: rest =>
      match registry !! key with
      | None =>
          result_bind (transform rest registry d) (λ out, Returned ((key, value) :: out))
      | Some entry =>
          match function_for d entry with
          | None => transform rest registry d
          | Some fn =>
              result_bind (fn value) (λ value',
                result_bind (transform rest registry d) (λ out,
                  Returned ((key, value') :: out)))
          end
      end
  end.

End Spec.

(** ** Sessions of the hook and of the debouncer *)

Module Session.
Import Utils Hook.

(** The calls of the store among the events. *)
Definition store_calls {V} (evs : list (event V)) : list (event V) :=
  omap (λ ev, match ev with
              | GetItem _ | SetItem _ _ | RemoveItem _ => Some ev
              | _ => None
              end) evs.

(** The first render: [useState(false)] and [useState(autoRestore)]. *)
Definition first_render {S F V} (autoRestore : bool) (memory : S) (f : F)
    : world S F V :=
  {| store := memory; form := f; isRestored := false; isLoading := autoRestore;
     trace := [] |}.

(** The effect run once after the first render:
    [if (autoRestore) restoreDataFromStorage()]. *)
Definition mount_effect {S F V} `{JS V, FormBinding F V} (storage : Storage S)
    (key : string) (options : Options V) (autoRestore : bool)
    : M (world S F V) unit :=
  if autoRestore then restoreDataFromStorage storage key options else ret ().


(** Calls of the debounced function, each at its time, in order. *)
Definition run_calls {A} (delay : Z) (calls : list (Z * A)) (s : debounce_state A)
    : debounce_state A :=
  foldl (λ s '(t, args), call_at delay t args s) s calls.



End Session.

(** * Properties *)

(** ** Objects *)

Section Objects.
Context {V : Type}.
Implicit Types (o acc : fields V) (k : string) (v : V).

Lemma set_prop_fresh k v acc :
  k ∉ keys acc → set_prop k v acc = acc ++ [(k, v)].
Proof.
  induction acc as [|[k' v'] acc IH]; simpl; [done|].
  intros Hk. apply not_elem_of_cons in Hk as [Hne Hk].
  case_decide; [congruence|]. by rewrite IH.
Qed.

Lemma keys_snoc acc k v : keys (acc ++ [(k, v)]) = keys acc ++ [k].
Proof. unfold keys. by rewrite fmap_app. Qed.

(** A [reduce] that copies the entries a test keeps is a filter. *)
Lemma reduce_keep (keep : string → bool) o acc :
  NoDup (keys o) →
  (∀ k, k ∈ keys acc → k ∉ keys o) →
  foldl (λ acc '(k, v), if keep k then set_prop k v acc else acc) acc o
  = acc ++ filter (λ kv, keep kv.1 = true) o.
Proof.
  revert acc. induction o as [|[k v] o IH]; intros acc Hnd Hdisj.
  - cbn. by rewrite app_nil_r.
  - change (keys ((k, v) :: o)) with (k :: keys o) in *.
    apply NoDup_cons in Hnd as [Hk Hnd].
    assert (Hfresh : k ∉ keys acc).
    { intros Hin. apply (Hdisj k Hin). left. }
    cbn [foldl]. destruct (keep k) eqn:Hkeep.
    + rewrite set_prop_fresh by done. rewrite IH; [|done|].
      * rewrite (filter_cons_True _ (k, v)) by done. by rewrite <- app_assoc.
      * intros x. rewrite keys_snoc, elem_of_app, list_elem_of_singleton.
        intros [Hx| ->]; [|done].
        intros Hx'. apply (Hdisj x Hx). by right.
    + rewrite IH; [|done|].
      * rewrite (filter_cons_False _ (k, v)); [done|]. cbn. congruence.
      * intros x Hx Hx'. apply (Hdisj x Hx). by right.
Qed.

End Objects.

(** ** The field selector *)

Section Selector.
Import Utils.
Context {V : Type}.
Implicit Types (values : fields V) (K : list string).

Lemma includes_true K k : includes K k = true ↔ k ∈ K.
Proof. unfold includes. by rewrite bool_decide_eq_true. Qed.

Lemma includes_false K k : includes K k = false ↔ k ∉ K.
Proof. unfold includes. by rewrite bool_decide_eq_false. Qed.

(** The selector is the filter that keeps a key if the included list,
    when given, has it and the excluded list, when given, has it not. *)
Lemma select_as_filter values (included excluded : option (list string)) :
  NoDup (keys values) →
  filterIncludedOrExcludedFields values included excluded
  = filter (λ kv, match included with Some inc => includes inc kv.1 | None => true end
                  && match excluded with Some exc => negb (includes exc kv.1) | None => true end
                  = true) values.
Proof.
  intros Hnd. unfold filterIncludedOrExcludedFields.
  set (keep := λ k : string,
         match included with Some inc => includes inc k | None => true end
         && match excluded with Some exc => negb (includes exc k) | None => true end).
  transitivity (foldl (λ acc '(k, v), if keep k then set_prop k v acc else acc)
                      ([] : fields V) values).
  - generalize ([] : fields V). clear Hnd.
    induction values as [|[k v] values IH]; intros acc; [done|].
    cbn [foldl]. rewrite <- IH. f_equal. unfold keep.
    destruct included as [inc|], excluded as [exc|]; cbn;
      repeat match goal with |- context [includes ?l k] => destruct (includes l k) end;
      done.
  - rewrite reduce_keep; [|done|intros k Hk; by apply elem_of_nil in Hk].
    done.
Qed.

(** C6: with at most one list supplied, [filterIncludedOrExcludedFields]
    returns exactly the entries whose key is in the included list, in
    their original order; exactly the entries whose key is not in the
    excluded list; and with neither list all the entries unchanged.  It
    is a total function, and keys of the lists that the mapping does
    not have play no part. *)
Theorem select_one_list_or_none values K :
  NoDup (keys values) →
  filterIncludedOrExcludedFields values (Some K) None
    = filter (λ kv, kv.1 ∈ K) values
  ∧ filterIncludedOrExcludedFields values None (Some K)
    = filter (λ kv, kv.1 ∉ K) values
  ∧ filterIncludedOrExcludedFields values None None = values.
Proof.
  intros Hnd. rewrite !select_as_filter by done. split_and!.
  - apply list_filter_iff. intros kv. cbn.
    by rewrite andb_true_r, includes_true.
  - apply list_filter_iff. intros kv. cbn.
    by rewrite negb_true_iff, includes_false.
  - induction values as [|kv values IH]; [done|].
    rewrite filter_cons_True by done. f_equal. apply IH.
    by apply NoDup_cons in Hnd as [_ ?].
Qed.

(** C9: with both lists supplied both filters apply: the result has
    exactly the entries whose key is in the included list and not in
    the excluded list. *)
Theorem select_both_lists values (included excluded : list string) :
  NoDup (keys values) →
  filterIncludedOrExcludedFields values (Some included) (Some excluded)
  = filter (λ kv, kv.1 ∈ included ∧ kv.1 ∉ excluded) values.
Proof.
  intros Hnd. rewrite select_as_filter by done.
  apply list_filter_iff. intros kv.
  by rewrite andb_true_iff, negb_true_iff, includes_true, includes_false.
Qed.

(** The selector keeps keys unique. *)
Lemma select_keys_NoDup values included excluded :
  NoDup (keys values) →
  NoDup (keys (filterIncludedOrExcludedFields values included excluded)).
Proof.
  intros Hnd. rewrite select_as_filter by done. revert Hnd.
  unfold keys. induction values as [|[k v] values IH]; [done|].
  rewrite fmap_cons, NoDup_cons. intros [Hk Hnd].
  rewrite filter_cons. case_decide; [|by apply IH].
  rewrite fmap_cons. apply NoDup_cons. split; [|by apply IH].
  intros Hin. apply Hk. apply list_elem_of_fmap in Hin as ([k' v'] & -> & Hin).
  apply list_elem_of_filter in Hin as [_ Hin].
  apply list_elem_of_fmap. by exists (k', v').
Qed.

End Selector.

(** ** The value transformer *)

Section Transformer.
Import Utils.
Context {V : Type}.
Implicit Types (values acc : fields V) (registry : gmap string (Serializer V)).

Lemma reduce_thrown registry dir e values :
  foldl (transform_entry registry dir) (Thrown e) values = Thrown e.
Proof. induction values as [|[k v] values IH]; [done|]. apply IH. Qed.

Lemma reduce_transform registry d values acc :
  NoDup (keys values) →
  (∀ k, k ∈ keys acc → k ∉ keys values) →
  foldl (transform_entry registry (Spec.is_restore d)) (Returned acc) values
  = result_bind (Spec.transform values registry d) (λ out, Returned (acc ++ out)).
Proof.
  revert acc. induction values as [|[k v] values IH]; intros acc Hnd Hdisj.
  - cbn. by rewrite app_nil_r.
  - change (keys ((k, v) :: values)) with (k :: keys values) in *.
    apply NoDup_cons in Hnd as [Hk Hnd].
    assert (Hfresh : k ∉ keys acc).
    { intros Hin. apply (Hdisj k Hin). left. }
    assert (Hacc : ∀ x, x ∈ keys acc → x ∉ keys values).
    { intros x Hx Hx'. apply (Hdisj x Hx). by right. }
    assert (Hsnoc : ∀ v', ∀ x, x ∈ keys (acc ++ [(k, v')]) → x ∉ keys values).
    { intros v' x. rewrite keys_snoc, elem_of_app, list_elem_of_singleton.
      intros [Hx| ->]; [by apply Hacc|done]. }
    cbn [foldl Spec.transform]. unfold transform_entry at 2. cbn [result_bind].
    destruct (registry !! k) as [entry|] eqn:Hentry.
    + replace (if Spec.is_restore d then deserialize entry else serialize entry)
        with (Spec.function_for d entry) by by destruct d.
      destruct (Spec.function_for d entry) as [fn|]; [|by apply IH].
      destruct (fn v) as [v'|e]; cbn [result_bind]; [|apply reduce_thrown].
      rewrite set_prop_fresh by done. rewrite IH by (done || apply Hsnoc).
      destruct (Spec.transform values registry d); cbn [result_bind]; [|done].
      by rewrite <- app_assoc.
    + rewrite set_prop_fresh by done. rewrite IH by (done || apply Hsnoc).
      destruct (Spec.transform values registry d); cbn [result_bind]; [|done].
      by rewrite <- app_assoc.
Qed.

(** On an object, the [reduce] computes what the entry-by-entry reading
    of the specification computes. *)
Lemma transformValues_as_specified values registry d :
  NoDup (keys values) →
  transformValues values registry (Spec.is_restore d) = Spec.transform values registry d.
Proof.
  intros Hnd. unfold transformValues. rewrite reduce_transform; [|done|].
  - by destruct (Spec.transform values registry d).
  - intros k Hk. by apply elem_of_nil in Hk.
Qed.



End Transformer.

(** ** The debounce wrapper *)

Section Debounce.
Import Utils.
Context {A : Type}.
Implicit Types (s : debounce_state A) (tm : timer A) (delay t : Z) (args : A).

Lemma debounce_inv_initial t : debounce_inv (initial (A:=A) t).
Proof. done. Qed.

Lemma clearTimeout_own h d (a : A) :
  clearTimeout h [{| handle := h; due := d; timer_args := a |}] = [].
Proof. unfold clearTimeout. rewrite filter_cons_False; [done|]. cbn. by intros ?. Qed.

(** After a call the queue holds the timer of that call and no other. *)
Lemma debouncer_pending delay args s :
  0 ≤ delay → debounce_inv s →
  pending (debouncer delay args s)
  = [{| handle := next_handle s; due := now s + delay; timer_args := args |}].
Proof.
  intros Hdelay Hinv. unfold debouncer, debounce_inv in *. cbn.
  rewrite Z.max_r by done.
  destruct (timeout s) as [h|].
  - destruct Hinv as [_ [-> | (d & a & ->)]]; [done|].
    by rewrite clearTimeout_own.
  - by rewrite Hinv.
Qed.

Lemma debouncer_inv delay args s :
  0 ≤ delay → debounce_inv s → debounce_inv (debouncer delay args s).
Proof.
  intros Hdelay Hinv. pose proof (debouncer_pending delay args s Hdelay Hinv) as Hp.
  unfold debounce_inv. change (timeout (debouncer delay args s)) with (Some (next_handle s)).
  split; [cbn; lia|]. right. rewrite Hp. eauto.
Qed.

Lemma advance_not_due t s tm :
  pending s = [tm] → t < due tm →
  executed (advance t s) = executed s ∧ pending (advance t s) = [tm].
Proof.
  intros Hp Ht. unfold advance. rewrite Hp. cbn.
  destruct (Z.leb_spec (due tm) t); [lia|done].
Qed.

Lemma advance_due t s tm :
  pending s = [tm] → due tm ≤ t →
  executed (advance t s) = executed s ++ [(due tm, timer_args tm)]
  ∧ pending (advance t s) = [].
Proof.
  intros Hp Ht. unfold advance. rewrite Hp. destruct tm as [h d a].
  cbn [length run_timers earliest due handle timer_args] in *.
  destruct (Z.leb_spec d t); [|lia].
  by rewrite clearTimeout_own.
Qed.

Lemma advance_idle t s :
  pending s = [] → executed (advance t s) = executed s ∧ pending (advance t s) = [].
Proof. intros Hp. unfold advance. by rewrite Hp. Qed.

Lemma advance_inv t s : debounce_inv s → debounce_inv (advance t s).
Proof.
  unfold debounce_inv. change (timeout (advance t s)) with (timeout s).
  change (next_handle (advance t s)) with (next_handle s).
  destruct (timeout s) as [h|].
  - intros [Hh [Hp | (d & a & Hp)]]; split; try done.
    + left. by apply advance_idle.
    + destruct (Z.lt_ge_cases t d) as [Ht|Ht].
      * right. exists d, a. by eapply advance_not_due.
      * left. by eapply advance_due.
  - intros Hp. by apply advance_idle.
Qed.


End Debounce.

(** ** The adapter shim and the pipelines *)

Section Orchestrator.
Import Utils Hook.
Context {S F V : Type}.
Context {js : JS V} {fb : FormBinding F V}.
Implicit Types (storage : Storage S) (options : Options V) (w : world S F V).
Implicit Types (key k text line : string) (e : exn).

(** Runs a pipeline as far as the hypotheses rewritten so far decide. *)
Ltac run_pipeline :=
  unfold restore, restoreDataFromStorage, save, saveToStorage, clear,
    call_onRestore, call_onSave, console_error,
    mbind, M_bind, bind, update, lift, ret, try_finally, try_catch.

(** Normalises a world built by setters and events. *)
Ltac world_norm :=
  cbv [setIsLoading setIsRestored with_isLoading with_isRestored
       with_store with_form emit store form isRestored isLoading trace fst snd];
  rewrite <- ?app_assoc; cbn [app].

Lemma try_catch_resolves (body : M (world S F V) unit) handler w :
  (∀ e w1, ∃ w2, handler e w1 = (Returned (), w2)) →
  ∃ w', try_catch body handler w = (Returned (), w').
Proof.
  intros Hh. unfold try_catch. destruct (body w) as [[[]|e] w1]; eauto.
Qed.

Lemma console_error_resolves line w :
  ∃ w', console_error line w = (Returned (), w').
Proof. by eexists. Qed.

Lemma setItem_resolves storage k text w :
  ∃ w', setItem storage k text w = (Returned (), w').
Proof. apply try_catch_resolves. intros e w1. apply console_error_resolves. Qed.





Lemma getItem_returns storage k w stored s' :
  storage_getItem storage k (store w) = (Returned stored, s') →
  getItem storage k w = (Returned stored, with_store s' (emit (GetItem k) w)).
Proof. intros Hget. unfold getItem, try_catch, on_store. by rewrite Hget. Qed.

Lemma console_app w (evs : list (event V)) (w' : world S F V) :
  trace w' = trace w ++ evs →
  console w' = console w
               ++ omap (λ ev, match ev with ConsoleError line => Some line | _ => None end) evs.
Proof. intros Ht. unfold console. by rewrite Ht, omap_app. Qed.

(** The form writes of a restore, one after the other. *)
Lemma write_fields_spec options (values : fields V) w :
  let config := {| shouldDirty := dirty options; shouldTouch := touched options;
                   shouldValidate := validate options |} in
  write_fields options values w
  = {| store := store w;
       form := foldl (λ f '(field, value), setValue field value config f) (form w) values;
       isRestored := isRestored w;
       isLoading := isLoading w;
       trace := trace w ++ map (λ '(field, value), SetValue field value config) values |}.
Proof.
  intros config. revert w. induction values as [|[field value] values IH]; intros w.
  - cbn. rewrite app_nil_r. by destruct w.
  - unfold write_fields in *. cbn [foldl map]. rewrite IH. cbn.
    by rewrite <- app_assoc.
Qed.

(** [loading] is false when a restore is over. *)
Lemma restore_ends_not_loading storage key options w :
  isLoading (restore storage key options w).2 = false.
Proof.
  unfold restore, restoreDataFromStorage, mbind, M_bind, bind, update, try_finally.
  match goal with |- context [try_catch ?b ?h ?w0] =>
    by destruct (try_catch b h w0) end.
Qed.

(** C4: a stored text that [JSON.parse] rejects makes [restore] resolve
    with the form and [restored] as they were, with one more line on
    the console, the one of a failed restore, and with [loading] false;
    and [loading] is false after every restore. *)
Theorem restore_malformed_record storage key options w text s' e :
  storage_getItem storage key (store w) = (Returned (Some text), s') →
  text ≠ "" →
  JSON_parse text = Thrown e →
  let line := "[FORM-STORAGE] Failed to restore data from storage: " +:+ e in
  let w' := (restore storage key options w).2 in
  restore storage key options w
  = (Returned (),
     {| store := s'; form := form w; isRestored := isRestored w; isLoading := false;
        trace := trace w ++ [SetIsLoading true; GetItem key; ConsoleError line;
                             SetIsLoading false] |})
  ∧ form w' = form w
  ∧ isRestored w' = isRestored w
  ∧ (isRestored w = false → isRestored w' = false)
  ∧ console w' = console w ++ [line]
  ∧ callbacks w' = callbacks w
  ∧ (∀ storage0 key0 options0 (w0 : world S F V),
       isLoading (restore storage0 key0 options0 w0).2 = false).
Proof.
  intros Hget Htext Hparse line w'.
  assert (Hrun : restore storage key options w
                 = (Returned (),
                    {| store := s'; form := form w; isRestored := isRestored w;
                       isLoading := false;
                       trace := trace w ++ [SetIsLoading true; GetItem key;
                                            ConsoleError line; SetIsLoading false] |})).
  { clear w'. destruct w as [s0 f0 restored0 loading0 trace0]. cbn [store] in Hget.
    run_pipeline.
    rewrite (getItem_returns storage key _ (Some text) s') by done.
    rewrite decide_False by done. rewrite Hparse. by world_norm. }
  subst w'. rewrite Hrun. cbn [snd form isRestored trace].
  split_and!; try done.
  - by apply (console_app w [SetIsLoading true; GetItem key; ConsoleError line;
                             SetIsLoading false]).
  - unfold callbacks. cbn [trace]. rewrite omap_app. cbn. by rewrite app_nil_r.
  - intros. apply restore_ends_not_loading.
Qed.

(** C10: a stored text that is empty is treated as no stored text:
    [restore] resolves having written nothing to the form, with
    [restored] as it was, nothing logged, no callback called and
    [loading] false, whatever [JSON.parse] would make of the text. *)
Theorem restore_empty_record_as_absent storage key options w stored s' :
  storage_getItem storage key (store w) = (Returned stored, s') →
  stored = Some "" ∨ stored = None →
  let w' := (restore storage key options w).2 in
  restore storage key options w
  = (Returned (),
     {| store := s'; form := form w; isRestored := isRestored w; isLoading := false;
        trace := trace w ++ [SetIsLoading true; GetItem key; SetIsLoading false] |})
  ∧ form w' = form w
  ∧ isRestored w' = isRestored w
  ∧ console w' = console w
  ∧ callbacks w' = callbacks w
  ∧ isLoading w' = false.
Proof.
  intros Hget Hstored w'.
  assert (Hrun : restore storage key options w
                 = (Returned (),
                    {| store := s'; form := form w; isRestored := isRestored w;
                       isLoading := false;
                       trace := trace w ++ [SetIsLoading true; GetItem key;
                                            SetIsLoading false] |})).
  { clear w'. destruct w as [s0 f0 restored0 loading0 trace0]. cbn [store] in Hget.
    run_pipeline.
    rewrite (getItem_returns storage key _ stored s') by done.
    destruct Hstored as [-> | ->]; [rewrite decide_True by done|]; by world_norm. }
  subst w'. rewrite Hrun. cbn [snd form isRestored isLoading trace].
  split_and!; try done.
  - unfold console. cbn [trace]. rewrite omap_app. cbn. by rewrite app_nil_r.
  - unfold callbacks. cbn [trace]. rewrite omap_app. cbn. by rewrite app_nil_r.
Qed.


(** What a save does when selection, serialization and encoding return:
    it hands the text to the store and, the store having returned or
    thrown, calls [onSave] with the selected mapping. *)
Lemma saveToStorage_runs storage key options values w serialized text :
  transformValues
    (filterIncludedOrExcludedFields values (included options) (excluded options))
    (serializer options) false = Returned serialized →
  JSON_stringify serialized = Returned text →
  let valuesToStore :=
    filterIncludedOrExcludedFields values (included options) (excluded options) in
  let wrote := storage_setItem storage key text (store w) in
  (saveToStorage storage key options values w).1 = Returned ()
  ∧ store (saveToStorage storage key options values w).2 = wrote.2
  ∧ trace (saveToStorage storage key options values w).2
    = trace w
      ++ [SetItem key text]
      ++ match wrote.1 with
         | Returned _ => []
         | Thrown e =>
             [ConsoleError ("[FORM-STORAGE] Failed to save data to storage: " +:+ e)]
         end
      ++ match onSave options with
         | Some cb =>
             OnSave valuesToStore
             :: match cb valuesToStore with
                | Returned _ => []
                | Thrown e => [ConsoleError ("[FORM-STORAGE] Failed to save data: " +:+ e)]
                end
         | None => []
         end.
Proof.
  intros Htransform Hstringify valuesToStore wrote. subst wrote.
  destruct w as [s0 f0 restored0 loading0 trace0].
  run_pipeline. rewrite Htransform, Hstringify. fold valuesToStore.
  unfold setItem, try_catch, on_store, console_error, update. cbn [store].
  destruct (storage_setItem storage key text s0) as [[[]|e] s1];
    (destruct (onSave options) as [cb|]; [destruct (cb valuesToStore) as [[]|e']|]);
    by world_norm.
Qed.

End Orchestrator.

(** ** The properties on the fixtures of the test suite *)

Section Runs.
Import Utils Hook Json Stores Fixtures.

Ltac by_computation := apply (bool_decide_unpack _); vm_compute; exact I.

Lemma STORAGE_DEFAULT_VALUES_keys : NoDup (keys STORAGE_DEFAULT_VALUES).
Proof. by_computation. Defined.


(** Selection of the stored record by an included list, by an excluded
    list with a key the record does not have, and by no list. *)
Lemma select_one_list_or_none_witness :
  NoDup (keys STORAGE_DEFAULT_VALUES)
  ∧ filterIncludedOrExcludedFields STORAGE_DEFAULT_VALUES (Some ["number"; "name"; "phone"]) None
    = [("name", JStr "John Doe"); ("number", JNum 2)]
  ∧ filterIncludedOrExcludedFields STORAGE_DEFAULT_VALUES None (Some ["number"; "name"; "phone"])
    = [("email", JStr "john@example.com")]
  ∧ filterIncludedOrExcludedFields STORAGE_DEFAULT_VALUES None None
    = STORAGE_DEFAULT_VALUES.
Proof.
  split; [exact STORAGE_DEFAULT_VALUES_keys|].
  exact (select_one_list_or_none STORAGE_DEFAULT_VALUES ["number"; "name"; "phone"]
           STORAGE_DEFAULT_VALUES_keys).
Defined.

Lemma select_both_lists_witness :
  NoDup (keys STORAGE_DEFAULT_VALUES)
  ∧ filterIncludedOrExcludedFields STORAGE_DEFAULT_VALUES
      (Some ["name"; "email"]) (Some ["email"; "number"])
    = [("name", JStr "John Doe")].
Proof.
  split; [exact STORAGE_DEFAULT_VALUES_keys|].
  exact (select_both_lists STORAGE_DEFAULT_VALUES ["name"; "email"] ["email"; "number"]
           STORAGE_DEFAULT_VALUES_keys).
Defined.





(** The literal text of the test suite is stored. *)
Lemma restore_malformed_record_witness :
  storage_getItem webStorage STORAGE_TEST_KEY (store (stored "malformatted data"))
    = (Returned (Some "malformatted data"), {[STORAGE_TEST_KEY := "malformatted data"]})
  ∧ "malformatted data" ≠ ""
  ∧ JSON_parse "malformatted data" = Thrown "SyntaxError: Unexpected token in JSON"
  ∧ restore webStorage STORAGE_TEST_KEY no_options (stored "malformatted data")
    = (Returned (),
       {| store := {[STORAGE_TEST_KEY := "malformatted data"]};
          form := FORM_DEFAULT_VALUES; isRestored := false; isLoading := false;
          trace := [SetIsLoading true; GetItem STORAGE_TEST_KEY;
                    ConsoleError
                      "[FORM-STORAGE] Failed to restore data from storage: SyntaxError: Unexpected token in JSON";
                    SetIsLoading false] |}).
Proof.
  assert (Hget : storage_getItem webStorage STORAGE_TEST_KEY
                   (store (stored "malformatted data"))
                 = (Returned (Some "malformatted data"),
                    {[STORAGE_TEST_KEY := "malformatted data"]}))
    by (vm_compute; reflexivity).
  assert (Htext : "malformatted data" ≠ "") by discriminate.
  assert (Hparse : JSON_parse "malformatted data"
                   = Thrown "SyntaxError: Unexpected token in JSON")
    by (vm_compute; reflexivity).
  split_and!; [exact Hget|exact Htext|exact Hparse|].
  exact (proj1 (restore_malformed_record webStorage STORAGE_TEST_KEY no_options
                  (stored "malformatted data") _ _ _ Hget Htext Hparse)).
Defined.

(** The empty text is stored. *)
Lemma restore_empty_record_as_absent_witness :
  storage_getItem webStorage STORAGE_TEST_KEY (store (stored ""))
    = (Returned (Some ""), {[STORAGE_TEST_KEY := ""]})
  ∧ (Some "" = Some "" ∨ Some "" = None)
  ∧ restore webStorage STORAGE_TEST_KEY callback_options (stored "")
    = (Returned (),
       {| store := {[STORAGE_TEST_KEY := ""]};
          form := FORM_DEFAULT_VALUES; isRestored := false; isLoading := false;
          trace := [SetIsLoading true; GetItem STORAGE_TEST_KEY; SetIsLoading false] |}).
Proof.
  assert (Hget : storage_getItem webStorage STORAGE_TEST_KEY (store (stored ""))
                 = (Returned (Some ""), {[STORAGE_TEST_KEY := ""]}))
    by (vm_compute; reflexivity).
  assert (Hstored : Some "" = Some "" ∨ Some "" = None) by (left; reflexivity).
  split_and!; [exact Hget|exact Hstored|].
  exact (proj1 (restore_empty_record_as_absent webStorage STORAGE_TEST_KEY callback_options
                  (stored "") _ _ Hget Hstored)).
Defined.



(** C2 fails on a store that cannot save: the shim logs the failure and
    resolves, and [onSave] is called although nothing was written. *)
Lemma onSave_called_after_failed_write :
  let outcome := save failing_save_store STORAGE_TEST_KEY callback_options edited in
  let values := set_prop "name" (JStr TEST_NAME) FORM_DEFAULT_VALUES in
  outcome.1 = Returned ()
  ∧ store outcome.2 = ∅
  ∧ trace outcome.2
    = [SetItem STORAGE_TEST_KEY (stringify (JObj values));
       ConsoleError
         "[FORM-STORAGE] Failed to save data to storage: Error: Simulated save failure";
       OnSave values].
Proof. intros outcome values. split_and!; vm_compute; reflexivity. Qed.

End Runs.

(** * Further properties of the helpers and of the hook *)

(** ** The field selector, continued *)

Section SelectorMore.
Import Utils.
Context {V : Type}.
Implicit Types (values : fields V) (K : list string).

(** X1: selections compose.  Selecting by an included list and then by an
    excluded list, in either order, is the selection by both lists, and a
    selection applied to its own result changes nothing. *)
Theorem select_compose values (inc exc : list string) (included excluded : option (list string)) :
  NoDup (keys values) →
  filterIncludedOrExcludedFields
    (filterIncludedOrExcludedFields values (Some inc) None) None (Some exc)
  = filterIncludedOrExcludedFields values (Some inc) (Some exc)
  ∧ filterIncludedOrExcludedFields
      (filterIncludedOrExcludedFields values None (Some exc)) (Some inc) None
    = filterIncludedOrExcludedFields values (Some inc) (Some exc)
  ∧ filterIncludedOrExcludedFields
      (filterIncludedOrExcludedFields values included excluded) included excluded
    = filterIncludedOrExcludedFields values included excluded.
Proof.
  intros Hnd. split_and!.
  - rewrite (select_as_filter (filterIncludedOrExcludedFields _ _ _))
      by by apply select_keys_NoDup.
    rewrite !select_as_filter by done. rewrite list_filter_filter.
    apply list_filter_iff. intros kv. cbn.
    destruct (includes inc kv.1), (includes exc kv.1); cbn; intuition congruence.
  - rewrite (select_as_filter (filterIncludedOrExcludedFields _ _ _))
      by by apply select_keys_NoDup.
    rewrite !select_as_filter by done. rewrite list_filter_filter.
    apply list_filter_iff. intros kv. cbn.
    destruct (includes inc kv.1), (includes exc kv.1); cbn; intuition congruence.
  - rewrite (select_as_filter (filterIncludedOrExcludedFields _ _ _))
      by by apply select_keys_NoDup.
    rewrite !select_as_filter by done. rewrite list_filter_filter.
    apply list_filter_iff. intros kv. tauto.
Qed.

(** X2: the empty lists.  An included list that is empty selects nothing,
    whatever the excluded list; an excluded list that is empty, alone,
    selects everything. *)
Theorem select_empty_lists values (excluded : option (list string)) :
  NoDup (keys values) →
  filterIncludedOrExcludedFields values (Some []) excluded = []
  ∧ filterIncludedOrExcludedFields values None (Some []) = values.
Proof.
  intros Hnd. rewrite !select_as_filter by done. split.
  - induction values as [|kv values IH]; [done|].
    rewrite filter_cons_False.
    2: { intros Hkeep. apply andb_true_iff in Hkeep as [Hkeep _].
         apply includes_true in Hkeep. by apply elem_of_nil in Hkeep. }
    apply IH. by apply NoDup_cons in Hnd as [_ ?].
  - induction values as [|kv values IH]; [done|].
    rewrite filter_cons_True by done. f_equal.
    apply IH. by apply NoDup_cons in Hnd as [_ ?].
Qed.

(** X3: a selection never invents, alters or reorders entries: its result
    is a subsequence of the entries it was given, and a field it keeps has
    the value it had. *)
Theorem select_sublist values (included excluded : option (list string)) :
  NoDup (keys values) →
  filterIncludedOrExcludedFields values included excluded `sublist_of` values
  ∧ ∀ k v, (k, v) ∈ filterIncludedOrExcludedFields values included excluded →
           get_prop k values = Some v.
Proof.
  intros Hnd. rewrite select_as_filter by done. split.
  - apply sublist_filter.
  - intros k v Hin. apply list_elem_of_filter in Hin as [_ Hin].
    clear included excluded. induction values as [|[k' v'] values IH].
    + by apply elem_of_nil in Hin.
    + change (keys ((k', v') :: values)) with (k' :: keys values) in Hnd.
      apply NoDup_cons in Hnd as [Hk' Hnd]. cbn.
      apply elem_of_cons in Hin as [[= <- <-]|Hin].
      * by rewrite decide_True.
      * rewrite decide_False; [by apply IH|].
        intros ->. apply Hk'. apply list_elem_of_fmap. by exists (k, v).
Qed.

End SelectorMore.

(** ** The value transformer, continued *)

Section TransformerMore.
Import Utils Session.
Context {V : Type}.
Implicit Types (values out : fields V) (registry : gmap string (Serializer V)).

Lemma transformValues_either registry values (deserialize_dir : bool) :
  NoDup (keys values) →
  transformValues values registry deserialize_dir
  = Spec.transform values registry
      (if deserialize_dir then Spec.restore_direction else Spec.serialize_direction).
Proof.
  intros Hnd. destruct deserialize_dir.
  - by apply (transformValues_as_specified values registry Spec.restore_direction).
  - by apply (transformValues_as_specified values registry Spec.serialize_direction).
Qed.




(** X6: the first transform function that throws decides the outcome.
    If the entries before a field are transformed without an exception
    and the function for that field throws, [transformValues] throws that
    exception, whatever follows the field. *)
Theorem transformValues_first_throw registry (deserialize_dir : bool)
    before k v after out entry fn e :
  transformValues before registry deserialize_dir = Returned out →
  registry !! k = Some entry →
  (if deserialize_dir then deserialize entry else serialize entry) = Some fn →
  fn v = Thrown e →
  transformValues (before ++ (k, v) :: after) registry deserialize_dir = Thrown e.
Proof.
  unfold transformValues. intros Hbefore Hentry Hfn Hthrow.
  rewrite foldl_app, Hbefore. cbn [foldl transform_entry result_bind].
  rewrite Hentry, Hfn, Hthrow. cbn [result_bind]. apply reduce_thrown.
Qed.

Lemma transform_keys_sublist registry d values out :
  Spec.transform values registry d = Returned out →
  keys out `sublist_of` keys values.
Proof.
  revert out. induction values as [|[k v] values IH]; intros out.
  - intros [= <-]. done.
  - cbn [Spec.transform]. change (keys ((k, v) :: values)) with (k :: keys values).
    destruct (registry !! k) as [entry|].
    + destruct (Spec.function_for d entry) as [fn|].
      * destruct (fn v) as [v'|]; [|done]. cbn [result_bind].
        destruct (Spec.transform values registry d) as [out'|]; [|done].
        intros [= <-]. change (keys ((k, v') :: out')) with (k :: keys out').
        apply sublist_skip. by apply IH.
      * intros Hout. apply sublist_cons. by apply IH.
    + destruct (Spec.transform values registry d) as [out'|]; [|done].
      intros [= <-]. change (keys ((k, v) :: out')) with (k :: keys out').
      apply sublist_skip. by apply IH.
Qed.

(** X7: a transformation adds, repeats and reorders no field: the keys of
    what it returns are a subsequence of the keys it was given, so they
    are unique again. *)
Theorem transformValues_keys registry (deserialize_dir : bool) values out :
  NoDup (keys values) →
  transformValues values registry deserialize_dir = Returned out →
  keys out `sublist_of` keys values ∧ NoDup (keys out).
Proof.
  intros Hnd Hout.
  assert (Hsub : keys out `sublist_of` keys values).
  { rewrite transformValues_either in Hout by done.
    by eapply transform_keys_sublist. }
  split; [done|]. by eapply sublist_NoDup.
Qed.

End TransformerMore.

(** ** The debounce wrapper, continued *)

Section DebounceMore.
Import Utils Session.
Context {A : Type}.
Implicit Types (s : debounce_state A) (tm : timer A) (delay t T : Z) (args a : A).
Implicit Types (calls : list (Z * A)).









(** X10: the debouncer never has two calls pending.  Whatever the calls
    and their times, and however far time has advanced, at most one timer
    is pending. *)
Theorem debounce_one_pending delay t0 calls T :
  0 ≤ delay →
  (length (pending (advance T (run_calls delay calls (initial t0)))) ≤ 1)%nat
  ∧ (length (pending (run_calls delay calls (initial (A:=A) t0))) ≤ 1)%nat.
Proof.
  intros Hdelay.
  assert (Hinv : debounce_inv (run_calls delay calls (initial (A:=A) t0))).
  { unfold run_calls. generalize (debounce_inv_initial (A:=A) t0).
    generalize (initial (A:=A) t0). induction calls as [|[t a] calls IH]; intros s Hs.
    - done.
    - cbn [foldl]. apply IH. unfold call_at. by apply debouncer_inv, advance_inv. }
  assert (Hlen : ∀ s, debounce_inv s → (length (pending s) ≤ 1)%nat).
  { intros s. unfold debounce_inv. destruct (timeout s).
    - intros [_ [-> | (d & a & ->)]]; cbn; lia.
    - intros ->. cbn. lia. }
  split; apply Hlen; [by apply advance_inv|done].
Qed.

End DebounceMore.

(** ** The pipelines, continued *)

Section OrchestratorMore.
Import Utils Hook Session.
Context {S F V : Type}.
Context {js : JS V} {fb : FormBinding F V}.
Implicit Types (storage : Storage S) (options : Options V) (w : world S F V).
Implicit Types (key k text line : string) (e : exn).

Ltac run_pipeline :=
  unfold restore, restoreDataFromStorage, save, saveToStorage, clear,
    setItem, getItem, removeItem, on_store,
    call_onRestore, call_onSave, console_error,
    mbind, M_bind, bind, update, lift, ret, try_finally, try_catch.

Ltac world_norm :=
  cbv [setIsLoading setIsRestored with_isLoading with_isRestored
       with_store with_form emit store form isRestored isLoading trace fst snd];
  rewrite <- ?app_assoc; cbn [app].

(** X11: a save that gets as far as the store.  When selection,
    serialization and encoding return and the store accepts the text,
    [save] has given the store the encoded, serialized selection of the
    current form values under the key, once, has then called [onSave],
    if there is one, with the selection as the form has it, and has
    changed neither the form nor the two flags; an exception of [onSave]
    is logged as a failed save although the text is stored. *)
Theorem save_stores_selection storage key options w serialized text s1 :
  transformValues
    (filterIncludedOrExcludedFields (getValues (form w))
       (included options) (excluded options))
    (serializer options) false = Returned serialized →
  JSON_stringify serialized = Returned text →
  storage_setItem storage key text (store w) = (Returned (), s1) →
  let valuesToStore :=
    filterIncludedOrExcludedFields (getValues (form w))
      (included options) (excluded options) in
  save storage key options w
  = (Returned (),
     {| store := s1; form := form w; isRestored := isRestored w;
        isLoading := isLoading w;
        trace := trace w
                 ++ [SetItem key text]
                 ++ match onSave options with
                    | Some cb =>
                        OnSave valuesToStore
                        :: match cb valuesToStore with
                           | Returned _ => []
                           | Thrown e =>
                               [ConsoleError ("[FORM-STORAGE] Failed to save data: " +:+ e)]
                           end
                    | None => []
                    end |}).
Proof.
  intros Htransform Hstringify Hset valuesToStore.
  destruct w as [s0 f0 restored0 loading0 trace0]. cbn [store form] in *.
  run_pipeline. cbn [store form]. rewrite Htransform, Hstringify, Hset.
  fold valuesToStore.
  destruct (onSave options) as [cb|]; [destruct (cb valuesToStore) as [[]|e]|];
    by world_norm.
Qed.

(** X12: a save that fails before the store.  When a [serialize]
    function or the encoding throws, [save] resolves having logged the
    failed save and nothing else: the store is not called, [onSave] is not
    called, and the form and the flags are as they were. *)
Theorem save_aborts_before_store storage key options w e :
  transformValues
    (filterIncludedOrExcludedFields (getValues (form w))
       (included options) (excluded options))
    (serializer options) false = Thrown e
  ∨ (∃ serialized,
       transformValues
         (filterIncludedOrExcludedFields (getValues (form w))
            (included options) (excluded options))
         (serializer options) false = Returned serialized
       ∧ JSON_stringify serialized = Thrown e) →
  save storage key options w
  = (Returned (),
     {| store := store w; form := form w; isRestored := isRestored w;
        isLoading := isLoading w;
        trace := trace w ++ [ConsoleError ("[FORM-STORAGE] Failed to save data: " +:+ e)] |}).
Proof.
  intros Hfail. destruct w as [s0 f0 restored0 loading0 trace0]. cbn [store form] in *.
  run_pipeline. cbn [store form].
  destruct Hfail as [Htransform | (serialized & Htransform & Hstringify)].
  - rewrite Htransform. by world_norm.
  - rewrite Htransform, Hstringify. by world_norm.
Qed.

(** X13: no partial restoration.  When the stored text parses but has no
    entries to enumerate, or a [deserialize] function throws, [restore]
    resolves having logged the failed restore and written no field: the
    form and [restored] are as they were, [onRestore] is not called, and
    [loading] is false. *)
Theorem restore_aborts_before_form storage key options w text s1 parsed e :
  storage_getItem storage key (store w) = (Returned (Some text), s1) →
  text ≠ "" →
  JSON_parse text = Returned parsed →
  Object_entries parsed = Thrown e
  ∨ (∃ entries,
       Object_entries parsed = Returned entries
       ∧ transformValues
           (filterIncludedOrExcludedFields entries (included options) (excluded options))
           (serializer options) true = Thrown e) →
  restore storage key options w
  = (Returned (),
     {| store := s1; form := form w; isRestored := isRestored w; isLoading := false;
        trace := trace w
                 ++ [SetIsLoading true; GetItem key;
                     ConsoleError
                       ("[FORM-STORAGE] Failed to restore data from storage: " +:+ e);
                     SetIsLoading false] |}).
Proof.
  intros Hget Htext Hparse Hfail.
  destruct w as [s0 f0 restored0 loading0 trace0]. cbn [store form] in *.
  run_pipeline. world_norm. rewrite Hget.
  rewrite decide_False by done. rewrite Hparse.
  destruct Hfail as [Hentries | (entries & Hentries & Htransform)].
  - rewrite Hentries. by world_norm.
  - rewrite Hentries, Htransform. by world_norm.
Qed.

(** Takes the cases of a pipeline one by one. *)
Ltac all_cases :=
  repeat (case_match; world_norm);
  repeat match goal with
         | H : write_fields _ _ _ = _ |- _ => rewrite write_fields_spec in H
         end;
  simplify_eq; world_norm.

(** X14: [save] and [clear] leave the form and the flags alone.  Whatever
    the store, the options and the outcome, after [save] and after [clear]
    the form, [restored] and [loading] are what they were. *)
Theorem save_and_clear_keep_form_and_flags storage key options w :
  form (save storage key options w).2 = form w
  ∧ isRestored (save storage key options w).2 = isRestored w
  ∧ isLoading (save storage key options w).2 = isLoading w
  ∧ form (clear storage key w).2 = form w
  ∧ isRestored (clear storage key w).2 = isRestored w
  ∧ isLoading (clear storage key w).2 = isLoading w.
Proof.
  destruct w as [s0 f0 restored0 loading0 trace0].
  split_and!; run_pipeline; world_norm; all_cases; done.
Qed.

(** X15: [restored] is never reset.  A restore that finds nothing, or
    fails, leaves [restored] as it was, so once true it stays true through
    every later restore. *)
Theorem restored_is_a_latch storage key options w :
  isRestored w = true → isRestored (restore storage key options w).2 = true.
Proof.
  destruct w as [s0 f0 restored0 loading0 trace0]. cbn [isRestored]. intros ->.
  run_pipeline; world_norm; all_cases; done.
Qed.

Lemma store_calls_app (evs1 evs2 : list (event V)) :
  store_calls (evs1 ++ evs2) = store_calls evs1 ++ store_calls evs2.
Proof. apply omap_app. Qed.



(** X21: a store that cannot be read.  When the store throws on the read,
    [restore] resolves with one line logged, the one of the shim, and with
    the form and [restored] as they were, [loading] false and no callback
    called: a failed read ends like an absent record. *)
Theorem restore_unreadable_store storage key options w e s1 :
  storage_getItem storage key (store w) = (Thrown e, s1) →
  restore storage key options w
  = (Returned (),
     {| store := s1; form := form w; isRestored := isRestored w; isLoading := false;
        trace := trace w
                 ++ [SetIsLoading true; GetItem key;
                     ConsoleError
                       ("[FORM-STORAGE] Failed to restore data from storage: " +:+ e);
                     SetIsLoading false] |}).
Proof.
  intros Hget. destruct w as [s0 f0 restored0 loading0 trace0]. cbn [store form] in *.
  run_pipeline. world_norm. rewrite Hget. by world_norm.
Qed.

Lemma transformValues_registry_agree (values : fields V)
    (registry registry' : gmap string (Serializer V)) (deserialize_dir : bool) :
  (∀ k, k ∈ keys values → registry !! k = registry' !! k) →
  transformValues values registry deserialize_dir
  = transformValues values registry' deserialize_dir.
Proof.
  unfold transformValues. generalize (Returned (A:=fields V) []).
  induction values as [|[k v] values IH]; intros acc Hagree; [done|].
  cbn [foldl]. rewrite IH.
  - f_equal. unfold transform_entry. by rewrite (Hagree k) by left.
  - intros k' Hk'. apply Hagree. by right.
Qed.

(** X22: serializers of fields that are not selected play no part in a
    save.  Two registries that agree on the selected fields of the form
    give the same save, so a serializer of an excluded field is never
    applied, and cannot make the save fail. *)
Theorem save_ignores_unselected_serializers storage key options w
    (registry' : gmap string (Serializer V)) :
  (∀ k, k ∈ keys (filterIncludedOrExcludedFields (getValues (form w))
                    (included options) (excluded options)) →
        serializer options !! k = registry' !! k) →
  save storage key options w
  = save storage key
      {| included := included options; excluded := excluded options;
         onRestore := onRestore options; onSave := onSave options;
         dirty := dirty options; touched := touched options;
         validate := validate options; serializer := registry' |} w.
Proof.
  intros Hagree. unfold save, saveToStorage, call_onSave. cbn [included excluded serializer onSave].
  by rewrite (transformValues_registry_agree _ _ registry' false Hagree).
Qed.

End OrchestratorMore.

(** ** The pipelines on a store that keeps what it is given *)

Section OnWebStorage.
Import Utils Hook Session Stores.
Context {F V : Type}.
Context {js : JS V} {fb : FormBinding F V}.
Implicit Types (options : Options V) (w : world (gmap string string) F V).
Implicit Types (key text : string).

Ltac run_pipeline :=
  unfold restore, restoreDataFromStorage, save, saveToStorage, clear,
    setItem, getItem, removeItem, on_store,
    call_onRestore, call_onSave, console_error,
    mbind, M_bind, bind, update, lift, ret, try_finally, try_catch.

Ltac world_norm :=
  cbv [setIsLoading setIsRestored with_isLoading with_isRestored
       with_store with_form emit store form isRestored isLoading trace fst snd
       webStorage storage_getItem storage_setItem storage_removeItem];
  rewrite <- ?app_assoc; cbn [app].

(** X17: after [clear] there is nothing to restore.  On [localStorage] a
    restore that follows a clear reads the key, finds nothing and leaves
    the form and [restored] as they were. *)
Theorem restore_after_clear key options w :
  restore webStorage key options (clear webStorage key w).2
  = (Returned (),
     {| store := delete key (store w); form := form w; isRestored := isRestored w;
        isLoading := false;
        trace := trace w ++ [RemoveItem key; SetIsLoading true; GetItem key;
                             SetIsLoading false] |}).
Proof.
  destruct w as [s0 f0 restored0 loading0 trace0].
  run_pipeline. world_norm. rewrite lookup_delete_eq. by world_norm.
Qed.




(** X23: saving again stores the same.  On [localStorage] a second save
    of a form that has not changed leaves the store as the first save left
    it. *)
Theorem save_twice key options w :
  store (save webStorage key options (save webStorage key options w).2).2
  = store (save webStorage key options w).2.
Proof.
  destruct w as [s0 f0 restored0 loading0 trace0].
  set (w0 := {| store := s0; form := f0; isRestored := restored0;
                isLoading := loading0; trace := trace0 |}).
  destruct (transformValues
              (filterIncludedOrExcludedFields (getValues f0)
                 (included options) (excluded options))
              (serializer options) false) as [serialized|e] eqn:Htransform;
    [destruct (JSON_stringify serialized) as [text|e] eqn:Hstringify|].
  - assert (Hrun : ∀ w1 : world (gmap string string) F V, form w1 = f0 →
              store (save webStorage key options w1).2 = <[key := text]> (store w1)
              ∧ form (save webStorage key options w1).2 = f0).
    { intros [s1 f1 restored1 loading1 trace1]. cbn [form store]. intros ->.
      run_pipeline. world_norm. rewrite Htransform, Hstringify.
      destruct (onSave options) as [cb|]; [destruct (cb _) as [[]|e]|]; by world_norm. }
    destruct (Hrun w0 eq_refl) as [Hstore Hform].
    destruct (Hrun _ Hform) as [-> _]. rewrite Hstore. by rewrite insert_insert_eq.
  - assert (Hrun : ∀ w1 : world (gmap string string) F V, form w1 = f0 →
              store (save webStorage key options w1).2 = store w1
              ∧ form (save webStorage key options w1).2 = f0).
    { intros [s1 f1 restored1 loading1 trace1]. cbn [form store]. intros ->.
      run_pipeline. world_norm. rewrite Htransform, Hstringify. by world_norm. }
    destruct (Hrun w0 eq_refl) as [Hstore Hform].
    by destruct (Hrun _ Hform) as [-> _].
  - assert (Hrun : ∀ w1 : world (gmap string string) F V, form w1 = f0 →
              store (save webStorage key options w1).2 = store w1
              ∧ form (save webStorage key options w1).2 = f0).
    { intros [s1 f1 restored1 loading1 trace1]. cbn [form store]. intros ->.
      run_pipeline. world_norm. rewrite Htransform. by world_norm. }
    destruct (Hrun w0 eq_refl) as [Hstore Hform].
    by destruct (Hrun _ Hform) as [-> _].
Qed.

(** X19: [loading] around the first render.  [loading] starts as
    [autoRestore]; once the effect of the first render is over it is
    false, and without [autoRestore] that effect has called neither the
    store nor the form nor a callback. *)
Theorem mount_ends_loading (storage : Storage (gmap string string)) key options
    (autoRestore : bool) memory (f : F) :
  let first := first_render (V:=V) autoRestore memory f in
  let mounted := (mount_effect storage key options autoRestore first).2 in
  isLoading first = autoRestore
  ∧ isRestored first = false
  ∧ isLoading mounted = false
  ∧ (autoRestore = false → mounted = first).
Proof.
  intros first mounted. split_and!; [done|done|..].
  - subst mounted first. unfold mount_effect. destruct autoRestore; [|done].
    apply (restore_ends_not_loading storage key options).
  - intros ->. done.
Qed.

End OnWebStorage.

(** ** The mock store of the tests *)

Section MockStore.
Import Hook Stores.


End MockStore.

(** ** The further properties on the fixtures of the test suite *)

Section MoreRuns.
Import Utils Hook Json Stores Fixtures Session.

Ltac by_computation := apply (bool_decide_unpack _); vm_compute; exact I.

Lemma select_compose_witness :
  NoDup (keys STORAGE_DEFAULT_VALUES)
  ∧ filterIncludedOrExcludedFields
      (filterIncludedOrExcludedFields STORAGE_DEFAULT_VALUES (Some ["name"; "email"]) None)
      None (Some ["email"])
    = filterIncludedOrExcludedFields STORAGE_DEFAULT_VALUES
        (Some ["name"; "email"]) (Some ["email"]).
Proof.
  split; [exact STORAGE_DEFAULT_VALUES_keys|].
  exact (proj1 (select_compose STORAGE_DEFAULT_VALUES ["name"; "email"] ["email"] None None
                  STORAGE_DEFAULT_VALUES_keys)).
Defined.

Lemma select_empty_lists_witness :
  NoDup (keys STORAGE_DEFAULT_VALUES)
  ∧ filterIncludedOrExcludedFields STORAGE_DEFAULT_VALUES (Some []) None = []
  ∧ filterIncludedOrExcludedFields STORAGE_DEFAULT_VALUES None (Some [])
    = STORAGE_DEFAULT_VALUES.
Proof.
  split; [exact STORAGE_DEFAULT_VALUES_keys|].
  exact (select_empty_lists STORAGE_DEFAULT_VALUES None STORAGE_DEFAULT_VALUES_keys).
Defined.

Lemma select_sublist_witness :
  NoDup (keys STORAGE_DEFAULT_VALUES)
  ∧ filterIncludedOrExcludedFields STORAGE_DEFAULT_VALUES None (Some ["email"])
    `sublist_of` STORAGE_DEFAULT_VALUES.
Proof.
  split; [exact STORAGE_DEFAULT_VALUES_keys|].
  exact (proj1 (select_sublist STORAGE_DEFAULT_VALUES None (Some ["email"])
                  STORAGE_DEFAULT_VALUES_keys)).
Defined.





(** [email] throws on the way to storage; [number] is not reached. *)
Lemma transformValues_first_throw_witness :
  transformValues [("name", JStr "John Doe")] (serializer throwing_options) false
    = Returned [("name", JStr "John Doe")]
  ∧ serializer throwing_options !! "email" = Some throwing_serializer
  ∧ serialize throwing_serializer = Some (λ _, Thrown "Error: cannot serialize")
  ∧ transformValues STORAGE_DEFAULT_VALUES (serializer throwing_options) false
    = Thrown "Error: cannot serialize".
Proof.
  assert (Hbefore : transformValues [("name", JStr "John Doe")]
                      (serializer throwing_options) false
                    = Returned [("name", JStr "John Doe")]) by (vm_compute; reflexivity).
  assert (Hentry : serializer throwing_options !! "email" = Some throwing_serializer)
    by (vm_compute; reflexivity).
  split_and!; [exact Hbefore|exact Hentry|reflexivity|].
  exact (transformValues_first_throw (serializer throwing_options) false
           [("name", JStr "John Doe")] "email" (JStr "john@example.com")
           [("number", JNum 2)] _ throwing_serializer _ "Error: cannot serialize"
           Hbefore Hentry eq_refl eq_refl).
Defined.

Lemma transformValues_keys_witness :
  NoDup (keys STORAGE_DEFAULT_VALUES)
  ∧ transformValues STORAGE_DEFAULT_VALUES sample_registry true
    = Returned [("name", JStr "John Doe"); ("number", JNum 1)]
  ∧ keys [("name", JStr "John Doe"); ("number", JNum 1)]
    `sublist_of` keys STORAGE_DEFAULT_VALUES.
Proof.
  assert (Hout : transformValues STORAGE_DEFAULT_VALUES sample_registry true
                 = Returned [("name", JStr "John Doe"); ("number", JNum 1)])
    by (vm_compute; reflexivity).
  split_and!; [exact STORAGE_DEFAULT_VALUES_keys|exact Hout|].
  exact (proj1 (transformValues_keys sample_registry true STORAGE_DEFAULT_VALUES _
                  STORAGE_DEFAULT_VALUES_keys Hout)).
Defined.



Lemma debounce_one_pending_witness :
  0 ≤ 300
  ∧ (length (pending (advance 120%Z (run_calls 300%Z [(100%Z, "late"); (50%Z, "early")]
                                       (initial 0%Z)))) ≤ 1)%nat.
Proof.
  assert (Hdelay : 0 ≤ 300) by lia.
  split; [exact Hdelay|].
  exact (proj1 (debounce_one_pending 300 0 [(100, "late"); (50, "early")] 120 Hdelay)).
Defined.

(** A manual save of the edited form into [localStorage]. *)
Lemma save_stores_selection_witness :
  let values := set_prop "name" (JStr TEST_NAME) FORM_DEFAULT_VALUES in
  let text := stringify (JObj values) in
  transformValues
    (filterIncludedOrExcludedFields (getValues (form edited))
       (included callback_options) (excluded callback_options))
    (serializer callback_options) false = Returned values
  ∧ JSON_stringify values = Returned text
  ∧ storage_setItem webStorage STORAGE_TEST_KEY text (store edited)
    = (Returned (), {[STORAGE_TEST_KEY := text]})
  ∧ save webStorage STORAGE_TEST_KEY callback_options edited
    = (Returned (),
       {| store := {[STORAGE_TEST_KEY := text]}; form := values;
          isRestored := false; isLoading := false;
          trace := [SetItem STORAGE_TEST_KEY text; OnSave values] |}).
Proof.
  intros values text.
  assert (Htransform :
            transformValues
              (filterIncludedOrExcludedFields (getValues (form edited))
                 (included callback_options) (excluded callback_options))
              (serializer callback_options) false = Returned values)
    by (vm_compute; reflexivity).
  assert (Hstringify : JSON_stringify values = Returned text) by reflexivity.
  assert (Hset : storage_setItem webStorage STORAGE_TEST_KEY text (store edited)
                 = (Returned (), {[STORAGE_TEST_KEY := text]}))
    by (vm_compute; reflexivity).
  split_and!; [exact Htransform|exact Hstringify|exact Hset|].
  exact (save_stores_selection webStorage STORAGE_TEST_KEY callback_options edited
           values text _ Htransform Hstringify Hset).
Defined.

(** The serializer of [email] throws. *)
Lemma save_aborts_before_store_witness :
  (transformValues
     (filterIncludedOrExcludedFields (getValues (form fresh))
        (included throwing_options) (excluded throwing_options))
     (serializer throwing_options) false = Thrown "Error: cannot serialize"
   ∨ ∃ serialized,
       transformValues
         (filterIncludedOrExcludedFields (getValues (form fresh))
            (included throwing_options) (excluded throwing_options))
         (serializer throwing_options) false = Returned serialized
       ∧ JSON_stringify serialized = Thrown "Error: cannot serialize")
  ∧ save webStorage STORAGE_TEST_KEY throwing_options fresh
    = (Returned (),
       {| store := ∅; form := FORM_DEFAULT_VALUES; isRestored := false; isLoading := false;
          trace := [ConsoleError
                      "[FORM-STORAGE] Failed to save data: Error: cannot serialize"] |}).
Proof.
  assert (Hfail :
            transformValues
              (filterIncludedOrExcludedFields (getValues (form fresh))
                 (included throwing_options) (excluded throwing_options))
              (serializer throwing_options) false = Thrown "Error: cannot serialize"
            ∨ ∃ serialized,
                transformValues
                  (filterIncludedOrExcludedFields (getValues (form fresh))
                     (included throwing_options) (excluded throwing_options))
                  (serializer throwing_options) false = Returned serialized
                ∧ JSON_stringify serialized = Thrown "Error: cannot serialize")
    by (left; vm_compute; reflexivity).
  split; [exact Hfail|].
  exact (save_aborts_before_store webStorage STORAGE_TEST_KEY throwing_options fresh
           "Error: cannot serialize" Hfail).
Defined.

(** The text [null] is stored: it parses, to a value without entries. *)
Lemma restore_aborts_before_form_witness :
  storage_getItem webStorage STORAGE_TEST_KEY (store (stored "null"))
    = (Returned (Some "null"), {[STORAGE_TEST_KEY := "null"]})
  ∧ "null" ≠ ""
  ∧ JSON_parse "null" = Returned JNull
  ∧ Object_entries JNull = Thrown "TypeError: Cannot convert undefined or null to object"
  ∧ restore webStorage STORAGE_TEST_KEY callback_options (stored "null")
    = (Returned (),
       {| store := {[STORAGE_TEST_KEY := "null"]}; form := FORM_DEFAULT_VALUES;
          isRestored := false; isLoading := false;
          trace := [SetIsLoading true; GetItem STORAGE_TEST_KEY;
                    ConsoleError
                      "[FORM-STORAGE] Failed to restore data from storage: TypeError: Cannot convert undefined or null to object";
                    SetIsLoading false] |}).
Proof.
  assert (Hget : storage_getItem webStorage STORAGE_TEST_KEY (store (stored "null"))
                 = (Returned (Some "null"), {[STORAGE_TEST_KEY := "null"]}))
    by (vm_compute; reflexivity).
  assert (Htext : "null" ≠ "") by discriminate.
  assert (Hparse : JSON_parse "null" = Returned JNull) by (vm_compute; reflexivity).
  assert (Hentries : Object_entries JNull
                     = Thrown "TypeError: Cannot convert undefined or null to object")
    by reflexivity.
  split_and!; [exact Hget|exact Htext|exact Hparse|exact Hentries|].
  exact (restore_aborts_before_form webStorage STORAGE_TEST_KEY callback_options
           (stored "null") "null" _ JNull _ Hget Htext Hparse (or_introl Hentries)).
Defined.

(** A restore from a store that fails, after one that succeeded. *)
Lemma restored_is_a_latch_witness :
  isRestored restored_before = true
  ∧ isRestored (restore failing_store STORAGE_TEST_KEY callback_options restored_before).2
    = true.
Proof.
  split; [reflexivity|].
  exact (restored_is_a_latch failing_store STORAGE_TEST_KEY callback_options
           restored_before eq_refl).
Defined.



(** A restore from a store that fails on every operation. *)
Lemma restore_unreadable_store_witness :
  storage_getItem failing_store STORAGE_TEST_KEY (store fresh)
    = (Thrown "Error: Simulated restore failure", ∅)
  ∧ restore failing_store STORAGE_TEST_KEY callback_options fresh
    = (Returned (),
       {| store := ∅; form := FORM_DEFAULT_VALUES; isRestored := false; isLoading := false;
          trace := [SetIsLoading true; GetItem STORAGE_TEST_KEY;
                    ConsoleError
                      "[FORM-STORAGE] Failed to restore data from storage: Error: Simulated restore failure";
                    SetIsLoading false] |}).
Proof.
  split; [reflexivity|].
  exact (restore_unreadable_store failing_store STORAGE_TEST_KEY callback_options fresh
           "Error: Simulated restore failure" ∅ eq_refl).
Defined.

Lemma fresh_selection_without_email k :
  k ∈ keys (filterIncludedOrExcludedFields (getValues (form fresh))
              (included excluded_email_options) (excluded excluded_email_options)) →
  serializer excluded_email_options !! k = serializer throwing_options !! k.
Proof.
  intros Hin. vm_compute in Hin.
  repeat (apply elem_of_cons in Hin as [->|Hin]); [..|by apply elem_of_nil in Hin];
    vm_compute; reflexivity.
Defined.

(** [email] is excluded, so its throwing serializer changes nothing. *)
Lemma save_ignores_unselected_serializers_witness :
  (∀ k, k ∈ keys (filterIncludedOrExcludedFields (getValues (form fresh))
                    (included excluded_email_options) (excluded excluded_email_options)) →
        serializer excluded_email_options !! k = serializer throwing_options !! k)
  ∧ save webStorage STORAGE_TEST_KEY excluded_email_options fresh
    = save webStorage STORAGE_TEST_KEY
        {| included := None; excluded := Some ["email"];
           onRestore := Some mock_fn; onSave := None;
           dirty := None; touched := None; validate := None;
           serializer := serializer throwing_options |} fresh.
Proof.
  split; [exact fresh_selection_without_email|].
  exact (save_ignores_unselected_serializers webStorage STORAGE_TEST_KEY
           excluded_email_options fresh (serializer throwing_options)
           fresh_selection_without_email).
Defined.

End MoreRuns.
